(** * The Solow growth model of [01-Macroeconomics/Code/solow_model.py]

    A shallow embedding of the class [SolowModel] and of the callback
    [update] of [interactive_phase_diagram], followed by the properties
    of the parameter-to-dynamics computation.

    Numbers.  A Python [float] is read as a real number: rounding,
    overflow and the sign of zero are not modelled, and the C function
    [pow] on a positive base is [Rpower x y = exp (y * ln x)].  What is
    modelled is the control flow that the operators add on top of the
    arithmetic: [/] raises [ZeroDivisionError] on a zero divisor, [**] on
    floats raises it for [0.0 ** negative] and returns a [complex] for a
    negative base with a fractional exponent, and the same operators on a
    numpy array never raise but produce [inf] and [nan] elementwise.

    What this reading cannot say.  Binary64 rounds every result, [**]
    raises [OverflowError] when the power leaves the float range, and a
    product or quotient that leaves it becomes [inf] or [0.0].  So no
    property of the code below rests on an equality or a strict
    inequality that real algebra alone gives, and a property that says
    what a call returns carries hypotheses that keep the values in the
    float range: a share between 0 and 1, the ranges of the sliders, or
    [in_float_range] itself.  The number such a property names is the
    code's result up to rounding. *)

From Stdlib Require Import Reals Lra Lia List ZArith Bool.
Import ListNotations.
Open Scope R_scope.

(** ** Python values and operators *)

Inductive exn : Type :=
| ZeroDivisionError.

Inductive result (A : Type) : Type :=
| Ok (a : A)
| Raise (e : exn).
Arguments Ok {A} a.
Arguments Raise {A} e.

(** An element of a numpy [float64] array. *)
Inductive float64 : Type :=
| Fin (x : R)
| PInf
| NInf
| NaN.

(** What the methods return: a float, a complex number (real and
    imaginary part) or a one-dimensional array. *)
Inductive pyobj : Type :=
| PyFloat (x : R)
| PyComplex (re im : R)
| NdArray (xs : list float64).

(** The argument [k] of [production]: "float or np.array". *)
Inductive float_or_array : Type :=
| AFloat (k : R)
| AnArray (ks : list float64).

(** [iw == floor(iw)] and [DOUBLE_IS_ODD_INTEGER(iw)]. *)
Definition is_integer (y : R) : bool :=
  if Req_dec_T y (IZR (Zfloor y)) then true else false.

Definition is_odd_integer (y : R) : bool :=
  is_integer y && Z.odd (Zfloor y).

(** [x / y] on floats. *)
Definition float_truediv (x y : R) : result R :=
  if Req_dec_T y 0 then Raise ZeroDivisionError else Ok (x / y).

(** [x ** y] on floats, in the order of the tests of [float_pow]. *)
Definition float_pow (x y : R) : result pyobj :=
  if Req_dec_T y 0 then Ok (PyFloat 1)
  else if Req_dec_T x 0 then
    if Rlt_dec y 0 then Raise ZeroDivisionError else Ok (PyFloat 0)
  else if Rlt_dec x 0 then
    if is_integer y then
      Ok (PyFloat (if is_odd_integer y then - Rpower (- x) y
                   else Rpower (- x) y))
    else
      Ok (PyComplex (Rpower (- x) y * cos (PI * y))
                    (Rpower (- x) y * sin (PI * y)))
  else Ok (PyFloat (Rpower x y)).

(** [pow(b, y)] of C on one array element, [y] finite. *)
Definition c_pow (b : float64) (y : R) : float64 :=
  if Req_dec_T y 0 then Fin 1
  else match b with
       | NaN => NaN
       | PInf => if Rlt_dec y 0 then Fin 0 else PInf
       | NInf =>
           if is_integer y then
             if Rlt_dec y 0 then Fin 0
             else if is_odd_integer y then NInf else PInf
           else NaN
       | Fin x =>
           if Req_dec_T x 0 then
             if Rlt_dec y 0 then PInf else Fin 0
           else if Rlt_dec x 0 then
             if is_integer y then
               Fin (if is_odd_integer y then - Rpower (- x) y
                    else Rpower (- x) y)
             else NaN
           else Fin (Rpower x y)
       end.

(** [a * v] and [v - w] on one array element, the scalar finite. *)
Definition f64_rmul (a : R) (v : float64) : float64 :=
  match v with
  | Fin x => Fin (a * x)
  | PInf => if Req_dec_T a 0 then NaN else if Rlt_dec a 0 then NInf else PInf
  | NInf => if Req_dec_T a 0 then NaN else if Rlt_dec a 0 then PInf else NInf
  | NaN => NaN
  end.

Definition f64_sub (v : float64) (w : R) : float64 :=
  match v with
  | Fin x => Fin (x - w)
  | other => other
  end.

(** [k ** a] with [k] a float or an array and [a] a float. *)
Definition py_pow (k : float_or_array) (a : R) : result pyobj :=
  match k with
  | AFloat x => float_pow x a
  | AnArray xs => Ok (NdArray (map (fun b => c_pow b a) xs))
  end.

(** [a * v] with [a] a float. *)
Definition py_rmul (a : R) (v : pyobj) : pyobj :=
  match v with
  | PyFloat x => PyFloat (a * x)
  | PyComplex re im => PyComplex (a * re) (a * im)
  | NdArray xs => NdArray (map (f64_rmul a) xs)
  end.

(** [v - w] with [w] a float. *)
Definition py_sub (v : pyobj) (w : R) : pyobj :=
  match v with
  | PyFloat x => PyFloat (x - w)
  | PyComplex re im => PyComplex (re - w) im
  | NdArray xs => NdArray (map (fun b => f64_sub b w) xs)
  end.

(** ** The class [SolowModel] *)

Record SolowModel : Type := {
  s : R;
  delta : R;
  n : R;
  g : R;
  alpha : R;
  lambda_factor : R
}.

(** A method reads and may write the attributes of [self], and returns
    or raises. *)
Definition method (A : Type) : Type := SolowModel -> result A * SolowModel.

Definition ret {A} (a : A) : method A := fun self => (Ok a, self).

Definition bind {A B} (c : method A) (k : A -> method B) : method B :=
  fun self =>
    match c self with
    | (Ok a, self') => k a self'
    | (Raise e, self') => (Raise e, self')
    end.

Definition getattr (field : SolowModel -> R) : method R :=
  fun self => (Ok (field self), self).

Definition lift {A} (r : result A) : method A := fun self => (r, self).

Notation "x <- c ;; k" := (bind c (fun x => k))
  (at level 61, c at next level, right associativity).

Definition __init__ (s0 delta0 n0 g0 alpha0 : R) : SolowModel :=
  {| s := s0; delta := delta0; n := n0; g := g0; alpha := alpha0;
     lambda_factor := n0 + g0 + delta0 |}.

Definition production (k : float_or_array) : method pyobj :=
  a <- getattr alpha ;;
  lift (py_pow k a).

Definition capital_accumulation (k : R) : method pyobj :=
  s_ <- getattr s ;;
  f <- production (AFloat k) ;;
  lam <- getattr lambda_factor ;;
  ret (py_sub (py_rmul s_ f) (lam * k)).

Definition steady_state : method pyobj :=
  s_ <- getattr s ;;
  lam <- getattr lambda_factor ;;
  q <- lift (float_truediv s_ lam) ;;
  a <- getattr alpha ;;
  e <- lift (float_truediv 1 (1 - a)) ;;
  lift (float_pow q e).

Definition plot_phase_data (k_values : list float64)
  : method (pyobj * pyobj) :=
  s_ <- getattr s ;;
  f <- production (AnArray k_values) ;;
  let invest := py_rmul s_ f in
  lam <- getattr lambda_factor ;;
  let break_even := NdArray (map (f64_rmul lam) k_values) in
  ret (invest, break_even).

(** ** The callback [update] of [interactive_phase_diagram]

    What the closure of [update] sees: the five sliders, which it reads,
    the variables [model] and [k_values] of the enclosing function, and
    the data of the three plotted lines, which it replaces.  Drawing is
    left to matplotlib and is not modelled. *)

Record Sliders : Type := {
  s_slider : R;
  delta_slider : R;
  n_slider : R;
  g_slider : R;
  alpha_slider : R
}.

Record Diagram : Type := {
  model : SolowModel;
  k_values : list float64;
  invest_line : pyobj;
  break_even_line : pyobj;
  steady_state_line : pyobj
}.

Definition update (sl : Sliders) (d : Diagram) : result unit * Diagram :=
  let new_model :=
    __init__ (s_slider sl) (delta_slider sl) (n_slider sl) (g_slider sl)
             (alpha_slider sl) in
  match plot_phase_data (k_values d) new_model with
  | (Raise e, _) => (Raise e, d)
  | (Ok (invest_new, break_even_new), new_model1) =>
      let d1 := {| model := model d; k_values := k_values d;
                   invest_line := invest_new;
                   break_even_line := break_even_new;
                   steady_state_line := steady_state_line d |} in
      match steady_state new_model1 with
      | (Raise e, _) => (Raise e, d1)
      | (Ok steady, _) =>
          (Ok tt, {| model := model d1; k_values := k_values d1;
                     invest_line := invest_line d1;
                     break_even_line := break_even_line d1;
                     steady_state_line := steady |})
      end
  end.

(** ** Reading the specification

    The derived field is consistent when it is the sum of its inputs. *)
Definition consistent (m : SolowModel) : Prop :=
  lambda_factor m = n m + g m + delta m.

(** The spec's reference power [x^y] on a non-negative base. *)
Definition rpow (x y : R) : R :=
  if Req_dec_T x 0 then (if Req_dec_T y 0 then 1 else 0) else Rpower x y.


(** The spec's closed form [(s / lambdaFactor)^(1/(1-alpha))]. *)
Definition closed_form (m : SolowModel) : R :=
  Rpower (s m / lambda_factor m) (1 / (1 - alpha m)).

(** ** The set-up of [interactive_phase_diagram]

    [np.linspace(start, stop, num)] with both ends included: the
    samples [arange(0, num) * step + start] with
    [step = (stop - start) / (num - 1)]. *)
Definition linspace (start stop : R) (num : nat) : list float64 :=
  map (fun i : nat => Fin (INR i * ((stop - start) / INR (num - 1)) + start))
      (seq 0 num).

(** The body of [interactive_phase_diagram] up to [plt.show()]: the
    diagram that is on screen before any slider has moved. *)
Definition interactive_phase_diagram : result Diagram :=
  let s0 := 3 / 10 in
  let delta0 := 5 / 100 in
  let n0 := 2 / 100 in
  let g0 := 2 / 100 in
  let alpha0 := 33 / 100 in
  let k_values0 := linspace 0 10 300 in
  let model0 := __init__ s0 delta0 n0 g0 alpha0 in
  match plot_phase_data k_values0 model0 with
  | (Raise e, _) => Raise e
  | (Ok (invest, break_even), model1) =>
      match steady_state model1 with
      | (Raise e, _) => Raise e
      | (Ok steady_state_value, model2) =>
          Ok {| model := model2; k_values := k_values0;
                invest_line := invest;
                break_even_line := break_even;
                steady_state_line := steady_state_value |}
      end
  end.

(** The positions the five [Slider] widgets can take: [valmin] and
    [valmax] of each. *)
Definition slider_ranges (sl : Sliders) : Prop :=
  0 <= s_slider sl <= 1 /\
  0 <= delta_slider sl <= 2 / 10 /\
  0 <= n_slider sl <= 1 / 10 /\
  0 <= g_slider sl <= 1 / 10 /\
  1 / 10 <= alpha_slider sl <= 9 / 10.

(** The diagrams the program can show: the first one, and the one left
    by [update] after any slider change, whether the call returned or
    raised. *)
Inductive reachable : Diagram -> Prop :=
| reachable_start (d : Diagram) :
    interactive_phase_diagram = Ok d -> reachable d
| reachable_update (sl : Sliders) (d : Diagram) :
    reachable d -> slider_ranges sl -> reachable (snd (update sl d)).

(** An array entry that is a number, and not negative. *)
Definition finite_nonneg (b : float64) : Prop :=
  exists x : R, b = Fin x /\ 0 <= x.

(** A diagram that can be drawn: both curves have one finite,
    non-negative ordinate per abscissa and start at the origin, and the
    vertical line sits at a non-negative real. *)
Definition drawable (d : Diagram) : Prop :=
  exists (invest break_even : list float64) (k_star : R),
    invest_line d = NdArray invest /\
    break_even_line d = NdArray break_even /\
    steady_state_line d = PyFloat k_star /\
    length invest = length (k_values d) /\
    length break_even = length (k_values d) /\
    Forall finite_nonneg invest /\
    Forall finite_nonneg break_even /\
    nth_error invest 0 = Some (Fin 0) /\
    nth_error break_even 0 = Some (Fin 0) /\
    0 <= k_star.

(** ** Unfolding the methods *)

Lemma production_unfold (k : float_or_array) (self : SolowModel) :
  production k self = (py_pow k (alpha self), self).
Proof. reflexivity. Qed.

Lemma capital_accumulation_unfold (k : R) (self : SolowModel) :
  capital_accumulation k self =
  match float_pow k (alpha self) with
  | Ok f => (Ok (py_sub (py_rmul (s self) f) (lambda_factor self * k)), self)
  | Raise e => (Raise e, self)
  end.
Proof.
  unfold capital_accumulation, production, bind, getattr, lift, ret; simpl.
  destruct (float_pow k (alpha self)); reflexivity.
Qed.

Lemma steady_state_unfold (self : SolowModel) :
  steady_state self =
  match float_truediv (s self) (lambda_factor self) with
  | Raise e => (Raise e, self)
  | Ok q =>
      match float_truediv 1 (1 - alpha self) with
      | Raise e => (Raise e, self)
      | Ok e => (float_pow q e, self)
      end
  end.
Proof.
  unfold steady_state, bind, getattr, lift; simpl.
  destruct (float_truediv (s self) (lambda_factor self)); [|reflexivity].
  destruct (float_truediv 1 (1 - alpha self)); reflexivity.
Qed.

Lemma plot_phase_data_unfold (ks : list float64) (self : SolowModel) :
  plot_phase_data ks self =
  (Ok (NdArray (map (fun b => f64_rmul (s self) (c_pow b (alpha self))) ks),
       NdArray (map (f64_rmul (lambda_factor self)) ks)), self).
Proof.
  unfold plot_phase_data, production, bind, getattr, lift, ret; simpl.
  now rewrite map_map.
Qed.

(** ** Facts about the operators *)

Lemma float_truediv_nonzero (x y : R) :
  y <> 0 -> float_truediv x y = Ok (x / y).
Proof.
  intros Hy. unfold float_truediv.
  destruct (Req_dec_T y 0); [contradiction | reflexivity].
Qed.

Lemma float_truediv_zero (x : R) :
  float_truediv x 0 = Raise ZeroDivisionError.
Proof.
  unfold float_truediv. destruct (Req_dec_T 0 0); [reflexivity | congruence].
Qed.

Lemma float_pow_pos (x y : R) :
  0 < x -> float_pow x y = Ok (PyFloat (Rpower x y)).
Proof.
  intros Hx. unfold float_pow.
  destruct (Req_dec_T y 0) as [-> | Hy].
  - now rewrite Rpower_O.
  - destruct (Req_dec_T x 0); [lra |].
    destruct (Rlt_dec x 0); [lra | reflexivity].
Qed.

Lemma float_pow_exp_zero (x : R) : float_pow x 0 = Ok (PyFloat 1).
Proof.
  unfold float_pow. destruct (Req_dec_T 0 0); [reflexivity | congruence].
Qed.

Lemma float_pow_zero_pos (y : R) :
  0 < y -> float_pow 0 y = Ok (PyFloat 0).
Proof.
  intros Hy. unfold float_pow.
  destruct (Req_dec_T y 0); [lra |].
  destruct (Req_dec_T 0 0); [| congruence].
  destruct (Rlt_dec y 0); [lra | reflexivity].
Qed.

Lemma float_pow_zero_neg (y : R) :
  y < 0 -> float_pow 0 y = Raise ZeroDivisionError.
Proof.
  intros Hy. unfold float_pow.
  destruct (Req_dec_T y 0); [lra |].
  destruct (Req_dec_T 0 0); [| congruence].
  destruct (Rlt_dec y 0); [reflexivity | lra].
Qed.

(** On the data model's range, base and exponent both non-negative, the
    float power is the reference power. *)
Lemma float_pow_nonneg (x y : R) :
  0 <= x -> 0 <= y -> float_pow x y = Ok (PyFloat (rpow x y)).
Proof.
  intros Hx Hy. unfold rpow.
  destruct (Req_dec_T x 0) as [-> | Hx0].
  - destruct (Req_dec_T y 0) as [-> | Hy0].
    + apply float_pow_exp_zero.
    + apply float_pow_zero_pos; lra.
  - apply float_pow_pos; lra.
Qed.

(** Wherever the float power returns a float, the array power returns
    the same number in that position. *)
Lemma c_pow_float_pow (x y v : R) :
  float_pow x y = Ok (PyFloat v) -> c_pow (Fin x) y = Fin v.
Proof.
  unfold float_pow, c_pow.
  destruct (Req_dec_T y 0); [congruence |].
  destruct (Req_dec_T x 0).
  - destruct (Rlt_dec y 0); congruence.
  - destruct (Rlt_dec x 0); [| congruence].
    destruct (is_integer y); congruence.
Qed.

Lemma Rpower_base_one (y : R) : Rpower 1 y = 1.
Proof. unfold Rpower. rewrite ln_1, Rmult_0_r. apply exp_0. Qed.

Lemma Zfloor_IZR (z : Z) : Zfloor (IZR z) = z.
Proof. apply Zfloor_eq. lra. Qed.

Lemma is_integer_IZR (z : Z) : is_integer (IZR z) = true.
Proof.
  unfold is_integer. rewrite Zfloor_IZR.
  destruct (Req_dec_T (IZR z) (IZR z)); [reflexivity | congruence].
Qed.

Lemma is_odd_integer_IZR (z : Z) : is_odd_integer (IZR z) = Z.odd z.
Proof.
  unfold is_odd_integer. now rewrite is_integer_IZR, Zfloor_IZR.
Qed.

Lemma float_pow_neg_integer (x : R) (z : Z) :
  x < 0 -> z <> 0%Z ->
  float_pow x (IZR z) =
  Ok (PyFloat (if Z.odd z then - Rpower (- x) (IZR z)
               else Rpower (- x) (IZR z))).
Proof.
  intros Hx Hz. unfold float_pow.
  destruct (Req_dec_T (IZR z) 0) as [E | _].
  - apply eq_IZR_R0 in E. contradiction.
  - destruct (Req_dec_T x 0); [lra |].
    destruct (Rlt_dec x 0); [| lra].
    now rewrite is_integer_IZR, is_odd_integer_IZR.
Qed.

(** No method writes an attribute. *)
Lemma production_pure (k : float_or_array) (self : SolowModel) :
  snd (production k self) = self.
Proof. reflexivity. Qed.

Lemma capital_accumulation_pure (k : R) (self : SolowModel) :
  snd (capital_accumulation k self) = self.
Proof.
  rewrite capital_accumulation_unfold.
  destruct (float_pow k (alpha self)); reflexivity.
Qed.

Lemma steady_state_pure (self : SolowModel) :
  snd (steady_state self) = self.
Proof.
  rewrite steady_state_unfold.
  destruct (float_truediv (s self) (lambda_factor self)); [| reflexivity].
  destruct (float_truediv 1 (1 - alpha self)); reflexivity.
Qed.

Lemma plot_phase_data_pure (ks : list float64) (self : SolowModel) :
  snd (plot_phase_data ks self) = self.
Proof. now rewrite plot_phase_data_unfold. Qed.



(** ** C1: a zero dilution rate *)

(** C1, as stated, fails: with [delta = -1] the dilution rate is
    negative, nothing is checked, and [steady_state] returns
    [(-1.0) ** 2.0 = 1.0]. *)
Lemma C1_negative_dilution_returns :
  lambda_factor (__init__ 1 (-1) 0 0 (/ 2)) <= 0 /\
  steady_state (__init__ 1 (-1) 0 0 (/ 2)) =
  (Ok (PyFloat 1), __init__ 1 (-1) 0 0 (/ 2)).
Proof.
  split; [simpl; lra |].
  rewrite steady_state_unfold. simpl.
  rewrite float_truediv_nonzero by lra.
  rewrite float_truediv_nonzero by lra.
  replace (1 / (0 + 0 + -1)) with (-1) by lra.
  replace (1 / (1 - / 2)) with (IZR 2) by lra.
  rewrite float_pow_neg_integer by (lra || discriminate).
  simpl. replace (- -1) with 1 by lra.
  now rewrite Rpower_base_one.
Qed.

(** C1 (amended): when the dilution rate [lambda_factor] is exactly zero,
    [steady_state] raises, by the division [s / lambda_factor], Python's
    [ZeroDivisionError]; it returns no number and leaves the model as it
    was. *)
Theorem C1_zero_dilution_raises (m : SolowModel) :
  lambda_factor m = 0 ->
  steady_state m = (Raise ZeroDivisionError, m).
Proof.
  intros H. rewrite steady_state_unfold, H.
  now rewrite float_truediv_zero.
Qed.

Lemma C1_zero_dilution_raises_witness :
  lambda_factor (__init__ (3 / 10) 0 0 0 (33 / 100)) = 0 /\
  steady_state (__init__ (3 / 10) 0 0 0 (33 / 100)) =
  (Raise ZeroDivisionError, __init__ (3 / 10) 0 0 0 (33 / 100)).
Proof.
  split; [simpl; lra |].
  apply (C1_zero_dilution_raises (__init__ (3 / 10) 0 0 0 (33 / 100))).
  simpl; lra.
Defined.

(** ** C2: the capital share is never checked *)

(** C2, as stated, fails: [alpha = 2] lies outside (0,1), yet the model
    is built, [production(1.0)] returns [1.0] and [steady_state()]
    returns [1.0 ** -1.0 = 1.0]; no error reaches the caller. *)
Lemma C2_share_two_accepted :
  ~ (0 < alpha (__init__ 1 1 0 0 2) < 1) /\
  production (AFloat 1) (__init__ 1 1 0 0 2) =
  (Ok (PyFloat 1), __init__ 1 1 0 0 2) /\
  steady_state (__init__ 1 1 0 0 2) =
  (Ok (PyFloat 1), __init__ 1 1 0 0 2).
Proof.
  split; [simpl; lra |]. split.
  - rewrite production_unfold. simpl.
    rewrite float_pow_pos by lra. now rewrite Rpower_base_one.
  - rewrite steady_state_unfold. simpl.
    rewrite !float_truediv_nonzero by lra.
    replace (1 / (0 + 0 + 1)) with 1 by lra.
    rewrite float_pow_pos by lra. now rewrite Rpower_base_one.
Qed.

(** C2 (amended): the constructor accepts every [alpha] and stores it
    unchanged, so it is never corrected, and the code has no share
    check.  Two out-of-range shares reach the caller as an error at
    first use, through the arithmetic: [alpha = 1] makes
    [steady_state()] raise [ZeroDivisionError], and [alpha < 0] makes
    [production(0.0)] raise it. *)
Theorem C2_share_stored_unchecked :
  (forall s0 delta0 n0 g0 alpha0 : R,
      alpha (__init__ s0 delta0 n0 g0 alpha0) = alpha0) /\
  (forall m : SolowModel,
      alpha m = 1 -> steady_state m = (Raise ZeroDivisionError, m)) /\
  (forall m : SolowModel,
      alpha m < 0 ->
      production (AFloat 0) m = (Raise ZeroDivisionError, m)).
Proof.
  split; [reflexivity |]. split.
  - intros m Ha. rewrite steady_state_unfold, Ha.
    destruct (float_truediv (s m) (lambda_factor m)) as [q | []];
      [| reflexivity].
    replace (1 - 1) with 0 by lra.
    now rewrite float_truediv_zero.
  - intros m Ha. rewrite production_unfold. simpl.
    now rewrite float_pow_zero_neg.
Qed.

Lemma C2_share_stored_unchecked_witness :
  steady_state (__init__ 1 1 0 0 1) =
  (Raise ZeroDivisionError, __init__ 1 1 0 0 1) /\
  production (AFloat 0) (__init__ 1 1 0 0 (-1)) =
  (Raise ZeroDivisionError, __init__ 1 1 0 0 (-1)).
Proof.
  split.
  - apply (proj1 (proj2 C2_share_stored_unchecked)). reflexivity.
  - apply (proj2 (proj2 C2_share_stored_unchecked)). simpl. lra.
Defined.

(** ** C3: the closed form *)

Lemma rpow_pos (x y : R) : 0 < x -> rpow x y = Rpower x y.
Proof.
  intros Hx. unfold rpow. destruct (Req_dec_T x 0); [lra | reflexivity].
Qed.

Lemma rpow_zero (y : R) : y <> 0 -> rpow 0 y = 0.
Proof.
  intros Hy. unfold rpow.
  destruct (Req_dec_T 0 0); [| congruence].
  destruct (Req_dec_T y 0); [contradiction | reflexivity].
Qed.

Lemma exponent_pos (a : R) : a < 1 -> 0 < 1 / (1 - a).
Proof. intros Ha. apply Rdiv_lt_0_compat; lra. Qed.

Lemma exponent_neg (a : R) : 1 < a -> 1 / (1 - a) < 0.
Proof.
  intros Ha. replace (1 / (1 - a)) with (- (1 / (a - 1))) by (field; lra).
  assert (0 < 1 / (a - 1)) by (apply Rdiv_lt_0_compat; lra). lra.
Qed.




Lemma closed_form_pos (m : SolowModel) : 0 < closed_form m.
Proof. unfold closed_form, Rpower. apply exp_pos. Qed.

(** In the real-number reading of the operators [steady_state] returns
    the closed form whenever [s] and [lambda_factor] are positive and
    [alpha] is not 1. *)
Lemma steady_state_valid (m : SolowModel) :
  0 < s m -> 0 < lambda_factor m -> alpha m <> 1 ->
  steady_state m = (Ok (PyFloat (closed_form m)), m).
Proof.
  intros Hs Hl Ha. rewrite steady_state_unfold.
  rewrite !float_truediv_nonzero by lra.
  rewrite float_pow_pos; [reflexivity |].
  apply Rdiv_lt_0_compat; lra.
Qed.

(** ** The closed form over the reals

    Facts of real analysis about the number [closed_form] that the spec
    names: it balances saving and dilution, no other positive number
    does, and it is strictly monotone in [s] and in [lambda_factor].
    They are facts about real numbers and not about the rounded results
    of the code, where the balance holds up to rounding and nearby
    inputs can give the same float. *)

(** Over the reals saving [s * k^alpha] equals dilution
    [lambda_factor * k] at the closed form. *)
Lemma closed_form_balances (m : SolowModel) :
  0 < s m -> 0 < lambda_factor m -> alpha m < 1 ->
  s m * Rpower (closed_form m) (alpha m) - lambda_factor m * closed_form m
  = 0.
Proof.
  intros Hs Hl Ha. unfold closed_form.
  set (q := s m / lambda_factor m).
  set (e := 1 / (1 - alpha m)).
  assert (Hq : 0 < q) by (apply Rdiv_lt_0_compat; lra).
  rewrite Rpower_mult.
  replace (Rpower q e) with (Rpower q (e * alpha m) * q).
  - unfold q at 3. field. lra.
  - rewrite <- (Rpower_1 q Hq) at 2. rewrite <- Rpower_plus.
    f_equal. unfold e. field. lra.
Qed.

(** Over the reals the closed form is the only positive [k] at which
    the two are equal. *)
Lemma rest_point_closed_form (m : SolowModel) (k : R) :
  0 < s m -> 0 < lambda_factor m -> alpha m < 1 -> 0 < k ->
  s m * Rpower k (alpha m) - lambda_factor m * k = 0 ->
  k = closed_form m.
Proof.
  intros Hs Hl Ha Hk Hroot.
  assert (Hp : 0 < Rpower k (alpha m)) by (unfold Rpower; apply exp_pos).
  assert (Hln : ln (s m * Rpower k (alpha m)) = ln (lambda_factor m * k))
    by (f_equal; lra).
  rewrite !ln_mult, ln_Rpower in Hln by assumption.
  assert (Hq : ln (s m / lambda_factor m) = ln (s m) - ln (lambda_factor m)).
  { unfold Rdiv. rewrite ln_mult, ln_Rinv; try lra.
    now apply Rinv_0_lt_compat. }
  rewrite <- (exp_ln k Hk). unfold closed_form, Rpower.
  f_equal. rewrite Hq. field_simplify_eq; [lra | lra].
Qed.

(** Over the reals the closed form rises strictly with [s] and falls
    strictly with [lambda_factor]. *)
Lemma closed_form_increasing_in_saving (m1 m2 : SolowModel) :
  alpha m1 = alpha m2 -> alpha m1 < 1 ->
  lambda_factor m1 = lambda_factor m2 -> 0 < lambda_factor m1 ->
  0 < s m1 -> s m1 < s m2 ->
  closed_form m1 < closed_form m2.
Proof.
  intros Ea Ha El Hl Hs Hlt. unfold closed_form. rewrite <- Ea, <- El.
  apply Rlt_Rpower_l; [now apply exponent_pos |].
  split; [apply Rdiv_lt_0_compat; lra |].
  unfold Rdiv. apply Rmult_lt_compat_r; [now apply Rinv_0_lt_compat | lra].
Qed.

Lemma closed_form_decreasing_in_dilution (m1 m2 : SolowModel) :
  alpha m1 = alpha m2 -> alpha m1 < 1 ->
  s m1 = s m2 -> 0 < s m1 ->
  0 < lambda_factor m1 -> lambda_factor m1 < lambda_factor m2 ->
  closed_form m2 < closed_form m1.
Proof.
  intros Ea Ha Es Hs Hl Hlt. unfold closed_form. rewrite <- Ea, <- Es.
  apply Rlt_Rpower_l; [now apply exponent_pos |].
  split; [apply Rdiv_lt_0_compat; lra |].
  unfold Rdiv. apply Rmult_lt_compat_l; [lra |].
  apply Rinv_lt_contravar; [apply Rmult_lt_0_compat; lra | lra].
Qed.

(** ** C5: the accumulation rate *)

Lemma production_nonneg (m : SolowModel) (k : R) :
  0 <= k -> 0 <= alpha m ->
  production (AFloat k) m = (Ok (PyFloat (rpow k (alpha m))), m).
Proof.
  intros Hk Ha. rewrite production_unfold. simpl.
  now rewrite float_pow_nonneg.
Qed.



(** ** C6: production *)

Lemma c_pow_nonneg (k a : R) :
  0 <= k -> 0 <= a -> c_pow (Fin k) a = Fin (rpow k a).
Proof.
  intros Hk Ha. apply c_pow_float_pow. now apply float_pow_nonneg.
Qed.

Lemma rpow_one (a : R) : rpow 1 a = 1.
Proof. rewrite rpow_pos by lra. apply Rpower_base_one. Qed.

(** C6: for [alpha] in (0,1) and [k >= 0], [production(k)] returns
    [k^alpha]; [production(0) = 0] and [production(1) = 1]; on an array it
    returns an array of the same length whose entry at each position is
    the power of the input's entry at that position. *)
Theorem C6_production_power (m : SolowModel) :
  0 < alpha m < 1 ->
  (forall k : R,
      0 <= k ->
      production (AFloat k) m = (Ok (PyFloat (rpow k (alpha m))), m)) /\
  production (AFloat 0) m = (Ok (PyFloat 0), m) /\
  production (AFloat 1) m = (Ok (PyFloat 1), m) /\
  (forall ks : list float64,
      exists out : list float64,
        production (AnArray ks) m = (Ok (NdArray out), m) /\
        length out = length ks /\
        forall (i : nat) (k : R),
          nth_error ks i = Some (Fin k) -> 0 <= k ->
          nth_error out i = Some (Fin (rpow k (alpha m)))).
Proof.
  intros [Ha0 Ha1]. repeat split.
  - intros k Hk. apply production_nonneg; lra.
  - rewrite production_nonneg by lra. now rewrite rpow_zero by lra.
  - rewrite production_nonneg by lra. now rewrite rpow_one.
  - intros ks. exists (map (fun b => c_pow b (alpha m)) ks).
    split; [reflexivity |]. split; [apply length_map |].
    intros i k Hi Hk. rewrite nth_error_map, Hi. simpl.
    now rewrite c_pow_nonneg by lra.
Qed.

Lemma C6_production_power_witness :
  production (AFloat 1) (__init__ (1 / 2) (1 / 10) 0 0 (1 / 2)) =
  (Ok (PyFloat 1), __init__ (1 / 2) (1 / 10) 0 0 (1 / 2)).
Proof.
  apply (C6_production_power (__init__ (1 / 2) (1 / 10) 0 0 (1 / 2))).
  simpl; lra.
Defined.

(** ** C7: the phase curves *)



(** ** C9: the derived field stays the sum of its inputs *)

Lemma __init___consistent (s0 delta0 n0 g0 alpha0 : R) :
  consistent (__init__ s0 delta0 n0 g0 alpha0).
Proof. reflexivity. Qed.

Lemma update_keeps_model (sl : Sliders) (d : Diagram) :
  model (snd (update sl d)) = model d /\
  k_values (snd (update sl d)) = k_values d.
Proof.
  unfold update. rewrite plot_phase_data_unfold.
  destruct (steady_state _) as [[steady | e] m']; split; reflexivity.
Qed.

Lemma update_plots_new_instance (sl : Sliders) (d : Diagram) :
  fst (plot_phase_data (k_values d)
         (__init__ (s_slider sl) (delta_slider sl) (n_slider sl)
                   (g_slider sl) (alpha_slider sl))) =
  Ok (invest_line (snd (update sl d)), break_even_line (snd (update sl d))).
Proof.
  unfold update. rewrite plot_phase_data_unfold.
  destruct (steady_state _) as [[steady | e] m']; reflexivity.
Qed.

(** C9: the constructor stores its five arguments and sets
    [lambda_factor] to [n + g + delta]; none of the four methods changes
    any attribute, so a consistent model stays consistent; and [update]
    realises a parameter change by building a new, consistent instance
    from the sliders, whose curves it plots, while the model it closes
    over is left as it was. *)
Theorem C9_lambda_factor_invariant :
  (forall s0 delta0 n0 g0 alpha0 : R,
      let m := __init__ s0 delta0 n0 g0 alpha0 in
      s m = s0 /\ delta m = delta0 /\ n m = n0 /\ g m = g0 /\
      alpha m = alpha0 /\ lambda_factor m = n0 + g0 + delta0 /\
      consistent m) /\
  (forall (m : SolowModel) (k : float_or_array),
      snd (production k m) = m) /\
  (forall (m : SolowModel) (k : R),
      snd (capital_accumulation k m) = m) /\
  (forall m : SolowModel, snd (steady_state m) = m) /\
  (forall (m : SolowModel) (ks : list float64),
      snd (plot_phase_data ks m) = m) /\
  (forall (sl : Sliders) (d : Diagram),
      let new_model :=
        __init__ (s_slider sl) (delta_slider sl) (n_slider sl)
                 (g_slider sl) (alpha_slider sl) in
      consistent new_model /\
      model (snd (update sl d)) = model d /\
      fst (plot_phase_data (k_values d) new_model) =
      Ok (invest_line (snd (update sl d)),
          break_even_line (snd (update sl d)))).
Proof.
  split; [intros; repeat split |].
  split; [intros; apply production_pure |].
  split; [intros; apply capital_accumulation_pure |].
  split; [intros; apply steady_state_pure |].
  split; [intros; apply plot_phase_data_pure |].
  intros sl d new_model. split; [apply __init___consistent |].
  split; [apply update_keeps_model | apply update_plots_new_instance].
Qed.

(** ** C10: the rate is the gap between the phase curves *)




(** ** Scenarios and the edge of the data model *)

(** Scenario 2 of the specification: [s = 0.5], [delta = 0.1],
    [n = g = 0], [alpha = 0.5] give [lambda_factor = 0.1] and the steady
    state [5^2 = 25]. *)
Example scenario_2_steady_state :
  steady_state (__init__ (1 / 2) (1 / 10) 0 0 (1 / 2)) =
  (Ok (PyFloat 25), __init__ (1 / 2) (1 / 10) 0 0 (1 / 2)).
Proof.
  rewrite steady_state_valid by (simpl; lra).
  unfold closed_form. simpl.
  replace (1 / 2 / (0 + 0 + 1 / 10)) with 5 by lra.
  replace (1 / (1 - 1 / 2)) with (INR 2) by (simpl; lra).
  rewrite Rpower_pow by lra.
  do 3 f_equal. lra.
Qed.

Lemma is_integer_half : is_integer (/ 2) = false.
Proof.
  unfold is_integer. rewrite (Zfloor_eq 0) by lra.
  destruct (Req_dec_T (/ 2) 0); [lra | reflexivity].
Qed.

(** A negative capital level with a fractional share leaves the reals:
    [(-1.0) ** 0.5] is the imaginary unit. *)
Example production_negative_capital :
  production (AFloat (-1)) (__init__ 1 1 0 0 (/ 2)) =
  (Ok (PyComplex 0 1), __init__ 1 1 0 0 (/ 2)).
Proof.
  rewrite production_unfold. simpl. unfold float_pow.
  destruct (Req_dec_T (/ 2) 0); [lra |].
  destruct (Req_dec_T (-1) 0); [lra |].
  destruct (Rlt_dec (-1) 0); [| lra].
  rewrite is_integer_half.
  replace (- -1) with 1 by lra. rewrite Rpower_base_one.
  replace (PI * / 2) with (PI / 2) by lra.
  rewrite cos_PI2, sin_PI2.
  do 3 f_equal; lra.
Qed.

(** With a negative share the float and the array power part ways at
    [k = 0]: the float power raises, the array holds [inf]. *)
Example production_negative_share :
  production (AFloat 0) (__init__ 1 1 0 0 (-1)) =
  (Raise ZeroDivisionError, __init__ 1 1 0 0 (-1)) /\
  production (AnArray [Fin 0]) (__init__ 1 1 0 0 (-1)) =
  (Ok (NdArray [PInf]), __init__ 1 1 0 0 (-1)).
Proof.
  split; rewrite production_unfold; simpl.
  - rewrite float_pow_zero_neg by lra. reflexivity.
  - unfold c_pow.
    destruct (Req_dec_T (-1) 0); [lra |].
    destruct (Req_dec_T 0 0); [| congruence].
    destruct (Rlt_dec (-1) 0); [reflexivity | lra].
Qed.

(** ** When the methods raise *)

Lemma quotient_zero_iff (x y : R) : y <> 0 -> (x / y = 0 <-> x = 0).
Proof.
  intros Hy. split; intros E.
  - replace x with (x / y * y) by (field; exact Hy). rewrite E. lra.
  - rewrite E. field. exact Hy.
Qed.

Lemma float_pow_raises_iff (x y : R) :
  float_pow x y = Raise ZeroDivisionError <-> x = 0 /\ y < 0.
Proof.
  unfold float_pow.
  destruct (Req_dec_T y 0) as [Hy | Hy].
  { split; [discriminate | lra]. }
  destruct (Req_dec_T x 0) as [Hx | Hx].
  - destruct (Rlt_dec y 0); split; try discriminate; tauto.
  - destruct (Rlt_dec x 0); [destruct (is_integer y) |];
      (split; [discriminate | tauto]).
Qed.

(** [steady_state()] raises [ZeroDivisionError] whenever the dilution
    rate is zero, or the share is one, or nothing is saved while the
    share exceeds one. *)
Theorem steady_state_raises_when (m : SolowModel) :
  lambda_factor m = 0 \/ alpha m = 1 \/ (s m = 0 /\ 1 < alpha m) ->
  fst (steady_state m) = Raise ZeroDivisionError.
Proof.
  intros H. rewrite steady_state_unfold.
  destruct (Req_dec_T (lambda_factor m) 0) as [Hl | Hl].
  { now rewrite Hl, float_truediv_zero. }
  rewrite float_truediv_nonzero by exact Hl.
  destruct (Req_dec_T (alpha m) 1) as [Ha | Ha].
  { rewrite Ha. replace (1 - 1) with 0 by lra.
    now rewrite float_truediv_zero. }
  rewrite float_truediv_nonzero by lra. simpl.
  destruct H as [H | [H | [Hs H1]]]; try contradiction.
  apply float_pow_raises_iff.
  split; [now apply quotient_zero_iff | now apply exponent_neg].
Qed.

(** [production(k)] on a float raises exactly at [k = 0] with a negative
    share, [capital_accumulation(k)] raises in exactly the same case, and
    [production] on an array never raises. *)
Theorem production_raises_iff (m : SolowModel) :
  (forall k : R,
      fst (production (AFloat k) m) = Raise ZeroDivisionError <->
      k = 0 /\ alpha m < 0) /\
  (forall k : R,
      fst (capital_accumulation k m) = Raise ZeroDivisionError <->
      k = 0 /\ alpha m < 0) /\
  (forall ks : list float64,
      exists out : list float64,
        production (AnArray ks) m = (Ok (NdArray out), m) /\
        length out = length ks).
Proof.
  split; [| split].
  - intros k. rewrite production_unfold. simpl. apply float_pow_raises_iff.
  - intros k. rewrite capital_accumulation_unfold.
    rewrite <- float_pow_raises_iff.
    destruct (float_pow k (alpha m)) as [f | []]; simpl.
    + split; discriminate.
    + tauto.
  - intros ks. exists (map (fun b => c_pow b (alpha m)) ks).
    split; [reflexivity | apply length_map].
Qed.

Lemma steady_state_raises_when_witness :
  fst (steady_state (__init__ 0 1 0 0 2)) = Raise ZeroDivisionError.
Proof.
  apply (steady_state_raises_when (__init__ 0 1 0 0 2)).
  right. right. simpl. lra.
Defined.

Lemma production_raises_iff_witness :
  fst (capital_accumulation 0 (__init__ 1 1 0 0 (-1))) =
  Raise ZeroDivisionError.
Proof.
  apply (proj2 (proj1 (proj2 (production_raises_iff
                                (__init__ 1 1 0 0 (-1)))) 0)).
  simpl. lra.
Defined.

Lemma Rpower_pos (x y : R) : 0 < Rpower x y.
Proof. unfold Rpower. apply exp_pos. Qed.

(** ** Arrays outside the model's range: [inf] and [nan] *)

Lemma rpow_nonneg (x y : R) : 0 <= rpow x y.
Proof.
  unfold rpow. destruct (Req_dec_T x 0).
  - destruct (Req_dec_T y 0); lra.
  - left. apply Rpower_pos.
Qed.

(** [plot_phase_data] returns and raises nothing whatever the share:
    with a negative share a zero capital level puts [inf],
    [-inf] or [nan] on the investment curve (by the sign of [s]), where
    [production(0.0)] on a float raises; and a negative capital level
    with a fractional share puts [nan] there. *)
Theorem plot_phase_data_inf_nan (m : SolowModel) (ks : list float64) :
  exists invest break_even : list float64,
    plot_phase_data ks m = (Ok (NdArray invest, NdArray break_even), m) /\
    (forall i : nat,
        alpha m < 0 -> nth_error ks i = Some (Fin 0) ->
        nth_error invest i =
        Some (if Req_dec_T (s m) 0 then NaN
              else if Rlt_dec (s m) 0 then NInf else PInf) /\
        fst (production (AFloat 0) m) = Raise ZeroDivisionError) /\
    (forall (i : nat) (k : R),
        k < 0 -> is_integer (alpha m) = false ->
        nth_error ks i = Some (Fin k) ->
        nth_error invest i = Some NaN).
Proof.
  exists (map (fun b => f64_rmul (s m) (c_pow b (alpha m))) ks),
         (map (f64_rmul (lambda_factor m)) ks).
  split; [apply plot_phase_data_unfold |]. split.
  - intros i Ha Hi. split.
    + rewrite nth_error_map, Hi. simpl. unfold c_pow.
      destruct (Req_dec_T (alpha m) 0); [lra |].
      destruct (Req_dec_T 0 0); [| congruence].
      destruct (Rlt_dec (alpha m) 0); [reflexivity | lra].
    + rewrite production_unfold. simpl. now apply float_pow_zero_neg.
  - intros i k Hk Hint Hi. rewrite nth_error_map, Hi. simpl. unfold c_pow.
    destruct (Req_dec_T (alpha m) 0) as [E | _].
    { rewrite E in Hint. change 0 with (IZR 0) in Hint.
      rewrite is_integer_IZR in Hint. discriminate. }
    destruct (Req_dec_T k 0); [lra |].
    destruct (Rlt_dec k 0); [| lra].
    now rewrite Hint.
Qed.

Lemma plot_phase_data_inf_nan_witness :
  exists invest break_even : list float64,
    plot_phase_data [Fin 0] (__init__ 1 1 0 0 (-1)) =
    (Ok (NdArray invest, NdArray break_even), __init__ 1 1 0 0 (-1)) /\
    nth_error invest 0 =
    Some (if Req_dec_T (s (__init__ 1 1 0 0 (-1))) 0 then NaN
          else if Rlt_dec (s (__init__ 1 1 0 0 (-1))) 0 then NInf
               else PInf).
Proof.
  destruct (plot_phase_data_inf_nan (__init__ 1 1 0 0 (-1)) [Fin 0])
    as (invest & break_even & Hp & Hz & _).
  exists invest, break_even. split; [exact Hp |].
  apply (Hz 0%nat); [simpl; lra | reflexivity].
Defined.

(** ** The diagram: set-up and slider changes *)

Lemma update_unfold (sl : Sliders) (d : Diagram) :
  update sl d =
  match fst (steady_state
               (__init__ (s_slider sl) (delta_slider sl) (n_slider sl)
                         (g_slider sl) (alpha_slider sl))) with
  | Raise e =>
      (Raise e,
       {| model := model d; k_values := k_values d;
          invest_line :=
            NdArray (map (fun b => f64_rmul (s_slider sl)
                                     (c_pow b (alpha_slider sl)))
                         (k_values d));
          break_even_line :=
            NdArray (map (f64_rmul
                            (n_slider sl + g_slider sl + delta_slider sl))
                         (k_values d));
          steady_state_line := steady_state_line d |})
  | Ok steady =>
      (Ok tt,
       {| model := model d; k_values := k_values d;
          invest_line :=
            NdArray (map (fun b => f64_rmul (s_slider sl)
                                     (c_pow b (alpha_slider sl)))
                         (k_values d));
          break_even_line :=
            NdArray (map (f64_rmul
                            (n_slider sl + g_slider sl + delta_slider sl))
                         (k_values d));
          steady_state_line := steady |})
  end.
Proof.
  unfold update. rewrite plot_phase_data_unfold.
  destruct (steady_state _) as [[steady | e] m']; reflexivity.
Qed.

Lemma steady_state_zero_dilution (m : SolowModel) :
  lambda_factor m = 0 -> steady_state m = (Raise ZeroDivisionError, m).
Proof.
  intros H. rewrite steady_state_unfold, H.
  now rewrite float_truediv_zero.
Qed.

Lemma steady_state_nonneg_saving (m : SolowModel) :
  0 <= s m -> 0 < lambda_factor m -> alpha m < 1 ->
  steady_state m =
  (Ok (PyFloat (rpow (s m / lambda_factor m) (1 / (1 - alpha m)))), m).
Proof.
  intros Hs Hl Ha. rewrite steady_state_unfold.
  rewrite !float_truediv_nonzero by lra.
  rewrite float_pow_nonneg; [reflexivity | |].
  - apply Rmult_le_pos; [exact Hs |].
    left. apply Rinv_0_lt_compat. exact Hl.
  - left. now apply exponent_pos.
Qed.

(** Whatever the sliders hold, [update] raises exactly what
    [steady_state()] of the new model raises, and then the vertical line
    keeps its previous position although both curves already show the
    new parameters; when [update] returns, the line is at the new steady
    state. *)
Theorem update_half_done_on_error (sl : Sliders) (d : Diagram) :
  let new_model :=
    __init__ (s_slider sl) (delta_slider sl) (n_slider sl) (g_slider sl)
             (alpha_slider sl) in
  (forall e : exn,
      fst (update sl d) = Raise e ->
      fst (steady_state new_model) = Raise e /\
      steady_state_line (snd (update sl d)) = steady_state_line d /\
      fst (plot_phase_data (k_values d) new_model) =
      Ok (invest_line (snd (update sl d)),
          break_even_line (snd (update sl d)))) /\
  (fst (update sl d) = Ok tt ->
   fst (steady_state new_model) =
   Ok (steady_state_line (snd (update sl d)))).
Proof.
  intros new_model. rewrite update_unfold. fold new_model.
  rewrite plot_phase_data_unfold.
  destruct (fst (steady_state new_model)) as [steady | e0]; simpl; split.
  - intros e He. discriminate.
  - reflexivity.
  - intros e He. injection He as ->. repeat split.
  - discriminate.
Qed.

Lemma update_half_done_on_error_witness :
  steady_state_line
    (snd (update {| s_slider := 1; delta_slider := 0; n_slider := 0;
                    g_slider := 0; alpha_slider := 1 / 2 |}
                 {| model := __init__ 1 1 0 0 (1 / 2); k_values := [Fin 1];
                    invest_line := NdArray [Fin 1];
                    break_even_line := NdArray [Fin 1];
                    steady_state_line := PyFloat 1 |})) = PyFloat 1.
Proof.
  apply (proj1 (update_half_done_on_error
                  {| s_slider := 1; delta_slider := 0; n_slider := 0;
                     g_slider := 0; alpha_slider := 1 / 2 |}
                  {| model := __init__ 1 1 0 0 (1 / 2);
                     k_values := [Fin 1];
                     invest_line := NdArray [Fin 1];
                     break_even_line := NdArray [Fin 1];
                     steady_state_line := PyFloat 1 |}) ZeroDivisionError).
  rewrite update_unfold.
  cbn [s_slider delta_slider n_slider g_slider alpha_slider].
  rewrite (steady_state_zero_dilution
             (__init__ 1 0 0 0 (1 / 2))) by (simpl; lra).
  reflexivity.
Defined.

(** With the sliders inside their ranges, [update] raises exactly when
    the three sliders for depreciation, population growth and technology
    growth all stand at zero; in every other position it returns, and
    the vertical line is at the real [(s / lambda)^(1/(1-alpha))]. *)
Theorem update_within_slider_ranges (sl : Sliders) (d : Diagram) :
  slider_ranges sl ->
  (fst (update sl d) = Raise ZeroDivisionError <->
   delta_slider sl = 0 /\ n_slider sl = 0 /\ g_slider sl = 0) /\
  (fst (update sl d) = Ok tt ->
   0 < n_slider sl + g_slider sl + delta_slider sl /\
   steady_state_line (snd (update sl d)) =
   PyFloat (rpow (s_slider sl /
                  (n_slider sl + g_slider sl + delta_slider sl))
                 (1 / (1 - alpha_slider sl)))).
Proof.
  intros (Hs & Hd & Hn & Hg & Ha). rewrite update_unfold.
  destruct (Req_dec_T (n_slider sl + g_slider sl + delta_slider sl) 0)
    as [Hz | Hnz].
  - rewrite steady_state_zero_dilution by exact Hz. simpl. split.
    + split; [intros _; lra | reflexivity].
    + discriminate.
  - rewrite steady_state_nonneg_saving by (simpl; lra). simpl. split.
    + split; [discriminate | lra].
    + intros _. split; [lra | reflexivity].
Qed.

Lemma update_within_slider_ranges_witness :
  fst (update {| s_slider := 1; delta_slider := 0; n_slider := 0;
                 g_slider := 0; alpha_slider := 1 / 2 |}
              {| model := __init__ 1 1 0 0 (1 / 2); k_values := [Fin 1];
                 invest_line := NdArray [Fin 1];
                 break_even_line := NdArray [Fin 1];
                 steady_state_line := PyFloat 1 |}) =
  Raise ZeroDivisionError.
Proof.
  apply (update_within_slider_ranges
           {| s_slider := 1; delta_slider := 0; n_slider := 0;
              g_slider := 0; alpha_slider := 1 / 2 |}).
  - unfold slider_ranges. simpl. lra.
  - simpl. lra.
Defined.

(** Calling [update] twice with the same sliders is the same as calling
    it once, and a call that returns wipes out every trace of the call
    before it: what is shown depends on the last slider positions
    only. *)
Theorem update_overwrites (sl1 sl2 : Sliders) (d : Diagram) :
  update sl1 (snd (update sl1 d)) = update sl1 d /\
  (fst (update sl2 d) = Ok tt ->
   update sl2 (snd (update sl1 d)) = update sl2 d).
Proof.
  split.
  - rewrite (update_unfold sl1 (snd (update sl1 d))).
    rewrite (update_unfold sl1 d).
    destruct (fst (steady_state _)); reflexivity.
  - rewrite (update_unfold sl2 (snd (update sl1 d))).
    rewrite (update_unfold sl2 d), (update_unfold sl1 d).
    destruct (fst (steady_state
                     (__init__ (s_slider sl2) (delta_slider sl2)
                               (n_slider sl2) (g_slider sl2)
                               (alpha_slider sl2)))); simpl.
    + intros _. destruct (fst (steady_state _)); reflexivity.
    + discriminate.
Qed.

Lemma update_overwrites_witness :
  update {| s_slider := 1; delta_slider := 1 / 10; n_slider := 0;
            g_slider := 0; alpha_slider := 1 / 2 |}
         (snd (update {| s_slider := 1; delta_slider := 0; n_slider := 0;
                         g_slider := 0; alpha_slider := 1 / 2 |}
                      {| model := __init__ 1 1 0 0 (1 / 2);
                         k_values := [Fin 1];
                         invest_line := NdArray [Fin 1];
                         break_even_line := NdArray [Fin 1];
                         steady_state_line := PyFloat 1 |})) =
  update {| s_slider := 1; delta_slider := 1 / 10; n_slider := 0;
            g_slider := 0; alpha_slider := 1 / 2 |}
         {| model := __init__ 1 1 0 0 (1 / 2); k_values := [Fin 1];
            invest_line := NdArray [Fin 1];
            break_even_line := NdArray [Fin 1];
            steady_state_line := PyFloat 1 |}.
Proof.
  apply (update_overwrites
           {| s_slider := 1; delta_slider := 0; n_slider := 0;
              g_slider := 0; alpha_slider := 1 / 2 |}
           {| s_slider := 1; delta_slider := 1 / 10; n_slider := 0;
              g_slider := 0; alpha_slider := 1 / 2 |}).
  rewrite update_unfold.
  cbn [s_slider delta_slider n_slider g_slider alpha_slider].
  rewrite steady_state_nonneg_saving by (simpl; lra).
  reflexivity.
Defined.

Lemma linspace_shape (a b : R) (num : nat) :
  0 <= a <= b ->
  exists xs : list R,
    linspace a b (S num) = map Fin (a :: xs) /\
    Forall (fun x : R => 0 <= x) xs /\
    length xs = num.
Proof.
  intros [Ha Hab]. unfold linspace.
  change (seq 0 (S num)) with (0%nat :: seq 1 num).
  exists (map (fun i : nat => INR i * ((b - a) / INR (S num - 1)) + a)
              (seq 1 num)).
  split; [| split].
  - cbn [map]. rewrite map_map. f_equal. f_equal.
    change (INR 0) with 0. lra.
  - apply Forall_forall. intros x Hin.
    apply in_map_iff in Hin as (i & <- & Hi). apply in_seq in Hi.
    replace (S num - 1)%nat with num by lia.
    assert (Hnum : 0 < INR num) by (apply lt_0_INR; lia).
    assert (Hi0 : 0 <= INR i) by apply pos_INR.
    assert (Hstep : 0 <= (b - a) / INR num).
    { apply Rmult_le_pos; [lra |]. left. now apply Rinv_0_lt_compat. }
    pose proof (Rmult_le_pos _ _ Hi0 Hstep). lra.
  - now rewrite length_map, length_seq.
Qed.

Lemma curves_drawable (sv av lam : R) (xs : list R) :
  Forall (fun x : R => 0 <= x) xs ->
  0 <= sv -> 0 < av -> 0 <= lam ->
  Forall finite_nonneg
    (map (fun b => f64_rmul sv (c_pow b av)) (map Fin (0 :: xs))) /\
  Forall finite_nonneg (map (f64_rmul lam) (map Fin (0 :: xs))) /\
  nth_error (map (fun b => f64_rmul sv (c_pow b av)) (map Fin (0 :: xs))) 0
  = Some (Fin 0) /\
  nth_error (map (f64_rmul lam) (map Fin (0 :: xs))) 0 = Some (Fin 0).
Proof.
  intros Hxs Hs Ha Hl.
  assert (Hall : Forall (fun x : R => 0 <= x) (0 :: xs))
    by (constructor; [lra | exact Hxs]).
  rewrite !map_map. repeat split.
  - apply Forall_forall. intros v Hin.
    apply in_map_iff in Hin as (x & <- & Hx).
    rewrite Forall_forall in Hall. specialize (Hall x Hx).
    rewrite c_pow_nonneg by lra. simpl.
    exists (sv * rpow x av). split; [reflexivity |].
    apply Rmult_le_pos; [exact Hs | apply rpow_nonneg].
  - apply Forall_forall. intros v Hin.
    apply in_map_iff in Hin as (x & <- & Hx).
    rewrite Forall_forall in Hall. specialize (Hall x Hx).
    exists (lam * x). split; [reflexivity |].
    now apply Rmult_le_pos.
  - cbn [map nth_error]. rewrite c_pow_nonneg, rpow_zero by lra.
    simpl. do 2 f_equal. lra.
  - cbn [map nth_error f64_rmul]. do 2 f_equal. lra.
Qed.

Lemma interactive_phase_diagram_unfold :
  interactive_phase_diagram =
  Ok {| model := __init__ (3 / 10) (5 / 100) (2 / 100) (2 / 100) (33 / 100);
        k_values := linspace 0 10 300;
        invest_line :=
          NdArray (map (fun b => f64_rmul (3 / 10) (c_pow b (33 / 100)))
                       (linspace 0 10 300));
        break_even_line :=
          NdArray (map (f64_rmul (2 / 100 + 2 / 100 + 5 / 100))
                       (linspace 0 10 300));
        steady_state_line :=
          PyFloat (closed_form
                     (__init__ (3 / 10) (5 / 100) (2 / 100) (2 / 100)
                               (33 / 100))) |}.
Proof.
  unfold interactive_phase_diagram. cbv zeta.
  rewrite plot_phase_data_unfold.
  rewrite steady_state_valid by (cbn [s lambda_factor alpha __init__]; lra).
  reflexivity.
Qed.

Lemma drawable_intro (d : Diagram) (sv av lam k_star : R) (xs : list R) :
  k_values d = map Fin (0 :: xs) ->
  Forall (fun x : R => 0 <= x) xs ->
  0 <= sv -> 0 < av -> 0 <= lam -> 0 <= k_star ->
  invest_line d =
  NdArray (map (fun b => f64_rmul sv (c_pow b av)) (k_values d)) ->
  break_even_line d = NdArray (map (f64_rmul lam) (k_values d)) ->
  steady_state_line d = PyFloat k_star ->
  drawable d.
Proof.
  intros Hk Hxs Hs Ha Hl Hstar Hi Hb Hline.
  destruct (curves_drawable sv av lam xs Hxs Hs Ha Hl)
    as (Fi & Fb & Zi & Zb).
  exists (map (fun b => f64_rmul sv (c_pow b av)) (k_values d)),
         (map (f64_rmul lam) (k_values d)), k_star.
  split; [exact Hi |]. split; [exact Hb |]. split; [exact Hline |].
  split; [apply length_map |]. split; [apply length_map |].
  rewrite Hk. repeat split; assumption.
Qed.

(** Every diagram the program can show is drawable.  Starting from the
    set-up of [interactive_phase_diagram] and after any number of slider
    changes within the slider ranges, including those on which [update]
    raises: the abscissae are still the 300 samples of
    [np.linspace(0, 10, 300)], the model made at set-up is untouched,
    both curves have 300 finite non-negative ordinates and start at the
    origin, and the vertical line sits at a non-negative real. *)
Theorem reachable_drawable (d : Diagram) :
  reachable d ->
  k_values d = linspace 0 10 300 /\
  length (k_values d) = 300%nat /\
  model d = __init__ (3 / 10) (5 / 100) (2 / 100) (2 / 100) (33 / 100) /\
  drawable d.
Proof.
  destruct (linspace_shape 0 10 299) as (xs & Hlin & Hxs & Hlen); [lra |].
  assert (Hlen300 : length (linspace 0 10 300) = 300%nat).
  { rewrite Hlin, length_map. cbn [length]. now rewrite Hlen. }
  induction 1 as [d Hstart | sl d Hreach IH Hrange].
  - rewrite interactive_phase_diagram_unfold in Hstart.
    injection Hstart as <-. cbn [k_values model].
    split; [reflexivity |]. split; [exact Hlen300 |].
    split; [reflexivity |].
    apply (drawable_intro _ (3 / 10) (33 / 100)
             (2 / 100 + 2 / 100 + 5 / 100)
             (closed_form (__init__ (3 / 10) (5 / 100) (2 / 100)
                                    (2 / 100) (33 / 100))) xs);
      try lra; try reflexivity; try assumption.
    left. apply closed_form_pos.
  - destruct IH as (Hk & Hl & Hm & Hd).
    destruct Hrange as (Hs & Hdl & Hn & Hg & Ha).
    rewrite update_unfold.
    destruct (Req_dec_T (n_slider sl + g_slider sl + delta_slider sl) 0)
      as [Hz | Hnz].
    + rewrite steady_state_zero_dilution by exact Hz.
      cbn [fst snd k_values model].
      repeat split; try assumption.
      destruct Hd as (i0 & b0 & k0 & _ & _ & Hline & _ & _ & _ & _ & _ & _
                      & Hk0).
      apply (drawable_intro _ (s_slider sl) (alpha_slider sl)
               (n_slider sl + g_slider sl + delta_slider sl) k0 xs);
        cbn [k_values invest_line break_even_line steady_state_line];
        try lra; try reflexivity; try assumption.
      now rewrite Hk.
    + rewrite steady_state_nonneg_saving
        by (cbn [s lambda_factor alpha __init__]; lra).
      cbn [fst snd k_values model].
      repeat split; try assumption.
      apply (drawable_intro _ (s_slider sl) (alpha_slider sl)
               (n_slider sl + g_slider sl + delta_slider sl)
               (rpow (s_slider sl /
                      (n_slider sl + g_slider sl + delta_slider sl))
                     (1 / (1 - alpha_slider sl))) xs);
        cbn [k_values invest_line break_even_line steady_state_line];
        try lra; try reflexivity; try assumption.
      * now rewrite Hk.
      * apply rpow_nonneg.
Qed.

Lemma reachable_drawable_witness :
  drawable
    (snd (update {| s_slider := 1; delta_slider := 0; n_slider := 0;
                    g_slider := 0; alpha_slider := 1 / 2 |}
            {| model :=
                 __init__ (3 / 10) (5 / 100) (2 / 100) (2 / 100) (33 / 100);
               k_values := linspace 0 10 300;
               invest_line :=
                 NdArray (map (fun b =>
                                 f64_rmul (3 / 10) (c_pow b (33 / 100)))
                              (linspace 0 10 300));
               break_even_line :=
                 NdArray (map (f64_rmul (2 / 100 + 2 / 100 + 5 / 100))
                              (linspace 0 10 300));
               steady_state_line :=
                 PyFloat (closed_form
                            (__init__ (3 / 10) (5 / 100) (2 / 100)
                                      (2 / 100) (33 / 100))) |})).
Proof.
  apply reachable_drawable.
  apply reachable_update.
  - apply reachable_start. exact interactive_phase_diagram_unfold.
  - unfold slider_ranges. simpl. lra.
Defined.

(** ** The methods read three attributes *)

(** The four methods read [s], [alpha] and [lambda_factor] and nothing
    else: two models that agree on these three attributes give the same
    results, whatever their [delta], [n] and [g] hold. *)
Theorem methods_read_three_attributes (m1 m2 : SolowModel) :
  s m1 = s m2 -> alpha m1 = alpha m2 ->
  lambda_factor m1 = lambda_factor m2 ->
  (forall k : float_or_array,
      fst (production k m1) = fst (production k m2)) /\
  (forall k : R,
      fst (capital_accumulation k m1) = fst (capital_accumulation k m2)) /\
  fst (steady_state m1) = fst (steady_state m2) /\
  (forall ks : list float64,
      fst (plot_phase_data ks m1) = fst (plot_phase_data ks m2)).
Proof.
  intros Hs Ha Hl. repeat split.
  - intros k. rewrite !production_unfold. simpl. now rewrite Ha.
  - intros k. rewrite !capital_accumulation_unfold. rewrite Hs, Ha, Hl.
    destruct (float_pow k (alpha m2)); reflexivity.
  - rewrite !steady_state_unfold. rewrite Hs, Ha, Hl.
    destruct (float_truediv (s m2) (lambda_factor m2)); [| reflexivity].
    destruct (float_truediv 1 (1 - alpha m2)); reflexivity.
  - intros ks. rewrite !plot_phase_data_unfold. simpl.
    now rewrite Hs, Ha, Hl.
Qed.

Lemma methods_read_three_attributes_witness :
  fst (steady_state (__init__ (1 / 2) (1 / 10) 0 0 (1 / 2))) =
  fst (steady_state (__init__ (1 / 2) 0 (1 / 10) 0 (1 / 2))).
Proof.
  apply (methods_read_three_attributes
           (__init__ (1 / 2) (1 / 10) 0 0 (1 / 2))
           (__init__ (1 / 2) 0 (1 / 10) 0 (1 / 2)));
    cbn [s lambda_factor alpha __init__]; lra.
Defined.
